(** * cool-mapper: the HTTP adapter [api/fastapi.py]

    A shallow embedding of the two route handlers of [api/fastapi.py], and of
    the request model [CreateMapRequest] they are declared on.  The handler
    [create_map] is a thin orchestration of the collaborators exported by the
    module [create_map_poster]; that module is not part of the file, so its
    functions are taken as parameters (a record of stateful, fallible
    operations) and every statement below is about the handler's own control
    flow: which collaborator is called, in which order, with which arguments,
    and how a raised exception is turned into an [HTTPException]. *)

From Stdlib Require Import ZArith List String Bool Lia.
Import ListNotations.

Local Open Scope string_scope.
Local Open Scope Z_scope.

(** ** Python values *)

(** A raised Python exception, as far as the handler looks at it.
    [except Exception] matches exactly the instances of [Exception]
    ([KeyboardInterrupt], [SystemExit], [asyncio.CancelledError] derive from
    [BaseException] only and pass through it); [str(e)] is what the f-string
    [{e}] and [str(e)] produce; [traceback.format_exc()] is the formatted
    trace of the exception being handled. *)
Record exn : Type := mk_exn {
  isinstance_Exception : bool;
  exc_str : string;
  format_exc : string
}.

(** The values the handlers return or put in an error detail: a string, or
    a dict from string keys to strings (kept in insertion order). *)
Inductive json : Type :=
| JStr (s : string)
| JObj (fields : list (string * string)).

(** What a call of a route handler ends in: a returned value, an
    [HTTPException(status_code, detail)] raised by the handler itself, or an
    exception of a collaborator that leaves the handler as it is. *)
Inductive outcome : Type :=
| Returned (v : json)
| HTTPException (status_code : Z) (detail : json)
| Propagated (e : exn).

(** ** The request model *)

(** [class CreateMapRequest(BaseModel)]: [city] and [country] are [str],
    the three others are [Optional[...]]. *)
Record CreateMapRequest : Type := mk_request {
  city : string;
  country : string;
  theme : option string;
  distance : option Z;
  format : option string
}.

(** A field of the JSON body before validation, as the JSON decoder
    delivers it: the key is absent, it is present with [null], or present
    with a value of the declared type.  (Values of another JSON type, and
    integer literals the decoder refuses for their length, are outside this
    model: the route answers them before validation.) *)
Inductive field (A : Type) : Type :=
| Omitted
| Null
| Given (a : A).
Arguments Omitted {A}.
Arguments Null {A}.
Arguments Given {A} a.

Record body : Type := mk_body {
  b_city : field string;
  b_country : field string;
  b_theme : field string;
  b_distance : field Z;
  b_format : field string
}.

Inductive validation_error : Type :=
| Missing (loc : string)
| NoneNotAllowed (loc : string).

(** [Field(...)] on a [str] annotation: the key must be present and must not
    be [null]; no other constraint (no [min_length]) is declared. *)
Definition required_field {A : Type} (loc : string) (f : field A)
  : list validation_error + A :=
  match f with
  | Omitted => inl [Missing loc]
  | Null => inl [NoneNotAllowed loc]
  | Given a => inr a
  end.

(** [Field(default)] on an [Optional[T]] annotation: the default stands in
    for an absent key only; an explicit [null] is the value [None]; no bound
    ([gt], [ge], [le]) is declared. *)
Definition optional_field {A : Type} (default : A) (f : field A) : option A :=
  match f with
  | Omitted => Some default
  | Null => None
  | Given a => Some a
  end.

Definition errors_of {A : Type} (r : list validation_error + A)
  : list validation_error :=
  match r with inl es => es | inr _ => [] end.

(** Validation of a body against [CreateMapRequest]; the errors of all
    fields are collected. *)
Definition parse_request (b : body) : list validation_error + CreateMapRequest :=
  match required_field "city" (b_city b), required_field "country" (b_country b) with
  | inr c, inr k =>
      inr {| city := c;
             country := k;
             theme := optional_field "feature_based" (b_theme b);
             distance := optional_field 29000 (b_distance b);
             format := optional_field "png" (b_format b) |}
  | rc, rk => inl (errors_of rc ++ errors_of rk)%list
  end.

(** ** String helpers of the 400 message *)

(** [f"{req.theme}"] for an [Optional[str]]. *)
Definition fmt_optional_str (o : option string) : string :=
  match o with
  | Some s => s
  | None => "None"
  end.

(** [req.theme not in available], negated: Python compares with [==], and
    [None] equals no string. *)
Definition theme_in (t : option string) (available : list string) : bool :=
  match t with
  | Some s => existsb (String.eqb s) available
  | None => false
  end.

Definition theme_not_found_detail (t : option string) (available : list string)
  : string :=
  "Theme '" ++ fmt_optional_str t ++ "' not found. Available: "
            ++ String.concat ", " available.

Definition import_failed_detail (e : exn) : string :=
  "Failed to import poster module: " ++ exc_str e.

(** ** The collaborators and the handlers *)

Section Handlers.

(** The state behind the module [create_map_poster] besides its global
    [THEME] (caches, files written, ...), the theme objects [load_theme]
    returns and the coordinates [get_coordinates] returns. *)
Variables W Theme Point : Type.

(** The module [create_map_poster] as the handler sees it: the attribute
    [THEME] it assigns, and the rest. *)
Record pstate : Type := mk_pstate {
  THEME : option Theme;
  env : W
}.

(** A collaborator runs on that state, may change it, and returns or
    raises. *)
Definition comp (A : Type) : Type := pstate -> pstate * (exn + A).

Record poster_module : Type := mk_poster {
  import_poster : comp unit;
  get_available_themes : comp (list string);
  load_theme : option string -> comp Theme;
  get_coordinates : string -> string -> comp Point;
  generate_output_filename : string -> option string -> option string -> comp string;
  create_poster :
    string -> string -> Point -> option Z -> string -> option string -> comp unit
}.

(** What the handler does to the module, in order; the handler keeps this
    log next to the module state so that "is never reached" can be said. *)
Inductive call : Type :=
| Call_import
| Call_get_available_themes
| Call_load_theme (name : option string)
| Assign_THEME (t : Theme)
| Call_get_coordinates (c k : string)
| Call_generate_output_filename (c : string) (t f : option string)
| Call_create_poster (c k : string) (p : Point) (d : option Z)
                     (out_path : string) (f : option string).

Record hstate : Type := mk_hstate {
  module_state : pstate;
  calls : list call
}.

(** The handler's monad: state passing with exceptions. *)
Definition H (A : Type) : Type := hstate -> hstate * (exn + A).

Definition ret {A : Type} (a : A) : H A := fun s => (s, inr a).

Definition bind {A B : Type} (m : H A) (f : A -> H B) : H B :=
  fun s =>
    match m s with
    | (s', inr a) => f a s'
    | (s', inl e) => (s', inl e)
    end.

(** A call of a collaborator: logged, then run on the module state. *)
Definition invoke {A : Type} (ev : call) (c : comp A) : H A :=
  fun s =>
    let (m', r) := c (module_state s) in
    ({| module_state := m'; calls := calls s ++ [ev] |}, r).

(** [poster.THEME = t]. *)
Definition assign_THEME (t : Theme) : H unit :=
  fun s =>
    ({| module_state := {| THEME := Some t; env := env (module_state s) |};
        calls := calls s ++ [Assign_THEME t] |}, inr tt).

Notation "x <- m ;; k" := (bind m (fun x => k))
  (at level 61, m at next level, right associativity).

Variable poster : poster_module.

(** [@app.get("/")]. *)
Definition root : hstate -> hstate * outcome :=
  fun s => (s, Returned (JObj [("message", "Hello World")])).

(** The arguments of the [create_poster] call of line 55. *)
Record job : Type := mk_job {
  j_city : string;
  j_country : string;
  j_point : Point;
  j_distance : option Z;
  j_out_path : string;
  j_format : option string
}.

Definition run_job (j : job) : H unit :=
  invoke (Call_create_poster (j_city j) (j_country j) (j_point j)
                             (j_distance j) (j_out_path j) (j_format j))
         (create_poster poster (j_city j) (j_country j) (j_point j)
                        (j_distance j) (j_out_path j) (j_format j)).

(** Lines 46-52: the part of the [try] block before the [await]. *)
Definition prepare (req : CreateMapRequest) : H job :=
  t <- invoke (Call_load_theme (theme req)) (load_theme poster (theme req)) ;;
  _ <- assign_THEME t ;;
  point <- invoke (Call_get_coordinates (city req) (country req))
                  (get_coordinates poster (city req) (country req)) ;;
  out_path <- invoke (Call_generate_output_filename (city req) (theme req) (format req))
                     (generate_output_filename poster (city req) (theme req) (format req)) ;;
  ret {| j_city := city req; j_country := country req; j_point := point;
         j_distance := distance req; j_out_path := out_path;
         j_format := format req |}.

(** Lines 46-57, for a request handled alone: [await run_in_threadpool]
    hands the call to a worker and resumes with its result or its
    exception. *)
Definition try_block (req : CreateMapRequest) : H string :=
  j <- prepare req ;;
  _ <- run_job j ;;
  ret (j_out_path j).

(** Lines 59-61. *)
Definition except_clause (e : exn) : outcome :=
  if isinstance_Exception e
  then HTTPException 500
         (JObj [("error", exc_str e); ("traceback", format_exc e)])
  else Propagated e.

(** [@app.post("/create-map")]. *)
Definition create_map (req : CreateMapRequest) : hstate -> hstate * outcome :=
  fun s0 =>
    match invoke Call_import (import_poster poster) s0 with
    | (s1, inl e) =>
        if isinstance_Exception e
        then (s1, HTTPException 500 (JStr (import_failed_detail e)))
        else (s1, Propagated e)
    | (s1, inr _) =>
        match invoke Call_get_available_themes (get_available_themes poster) s1 with
        | (s2, inl e) => (s2, Propagated e)
        | (s2, inr available) =>
            if negb (theme_in (theme req) available)
            then (s2, HTTPException 400
                        (JStr (theme_not_found_detail (theme req) available)))
            else
              match try_block req s2 with
              | (s3, inr out_path) =>
                  (s3, Returned (JObj [("output_file", out_path)]))
              | (s3, inl e) => (s3, except_clause e)
              end
        end
    end.

End Handlers.

Arguments mk_pstate {W Theme} THEME env.
Arguments THEME {W Theme} p.
Arguments env {W Theme} p.
Arguments mk_hstate {W Theme Point} module_state calls.
Arguments module_state {W Theme Point} h.
Arguments calls {W Theme Point} h.
Arguments Call_import {Theme Point}.
Arguments Call_get_available_themes {Theme Point}.
Arguments Call_load_theme {Theme Point} name.
Arguments Assign_THEME {Theme Point} t.
Arguments Call_get_coordinates {Theme Point} c k.
Arguments Call_generate_output_filename {Theme Point} c t f.
Arguments Call_create_poster {Theme Point} c k p d out_path f.
Arguments import_poster {W Theme Point} p.
Arguments get_available_themes {W Theme Point} p.
Arguments load_theme {W Theme Point} p name.
Arguments get_coordinates {W Theme Point} p c k.
Arguments generate_output_filename {W Theme Point} p c t f.
Arguments create_poster {W Theme Point} p c k pt d out_path f.
Arguments ret {W Theme Point A} a.
Arguments bind {W Theme Point A B} m f.
Arguments invoke {W Theme Point A} ev c.
Arguments assign_THEME {W Theme Point} t.
Arguments root {W Theme Point}.
Arguments mk_job {Point} j_city j_country j_point j_distance j_out_path j_format.
Arguments j_city {Point} j.
Arguments j_country {Point} j.
Arguments j_point {Point} j.
Arguments j_distance {Point} j.
Arguments j_out_path {Point} j.
Arguments j_format {Point} j.
Arguments run_job {W Theme Point} poster j.
Arguments prepare {W Theme Point} poster req.
Arguments try_block {W Theme Point} poster req.
Arguments create_map {W Theme Point} poster req.

(** ** The route as the framework serves it *)

(** What the client of [POST /create-map] gets: the body is validated
    against [CreateMapRequest] first, and [create_map] runs only on a body
    that passes. *)
Inductive response : Type :=
| Rejected (errors : list validation_error)
| Handled (o : outcome).

Definition post_create_map {W Theme Point : Type}
    (poster : poster_module W Theme Point) (b : body)
  : hstate W Theme Point -> hstate W Theme Point * response :=
  fun s =>
    match parse_request b with
    | inl errors => (s, Rejected errors)
    | inr req => let (s', o) := create_map poster req s in (s', Handled o)
    end.

(** ** Which collaborator raises *)

(** The [try] block raises [e] from state [m] and leaves state [m']: one of
    the four collaborator calls raises it, those before it having returned
    (the assignment of line 46 cannot raise). *)
Inductive collaborator_raises {W Theme Point : Type}
    (poster : poster_module W Theme Point) (req : CreateMapRequest)
    (m : pstate W Theme) (e : exn) : pstate W Theme -> Prop :=
| load_theme_raises m1 :
    load_theme poster (theme req) m = (m1, inl e) ->
    collaborator_raises poster req m e m1
| get_coordinates_raises m1 t m2 :
    load_theme poster (theme req) m = (m1, inr t) ->
    get_coordinates poster (city req) (country req)
                    (mk_pstate (Some t) (env m1)) = (m2, inl e) ->
    collaborator_raises poster req m e m2
| generate_output_filename_raises m1 t m2 pt m3 :
    load_theme poster (theme req) m = (m1, inr t) ->
    get_coordinates poster (city req) (country req)
                    (mk_pstate (Some t) (env m1)) = (m2, inr pt) ->
    generate_output_filename poster (city req) (theme req) (format req) m2
      = (m3, inl e) ->
    collaborator_raises poster req m e m3
| create_poster_raises m1 t m2 pt m3 out_path m4 :
    load_theme poster (theme req) m = (m1, inr t) ->
    get_coordinates poster (city req) (country req)
                    (mk_pstate (Some t) (env m1)) = (m2, inr pt) ->
    generate_output_filename poster (city req) (theme req) (format req) m2
      = (m3, inr out_path) ->
    create_poster poster (city req) (country req) pt (distance req) out_path
                  (format req) m3 = (m4, inl e) ->
    collaborator_raises poster req m e m4.

(** ** Requests in flight together *)

Section Server.

Variables W Theme Point : Type.
Variable poster : poster_module W Theme Point.

(** [create_map] up to its [await]: it answers at once (an error of the
    import, of the validation or of lines 46-52), or it has a
    [create_poster] call to hand to the thread pool. *)
Definition before_await (req : CreateMapRequest)
  : hstate W Theme Point -> hstate W Theme Point * (outcome + job Point) :=
  fun s0 =>
    match invoke Call_import (import_poster poster) s0 with
    | (s1, inl e) =>
        if isinstance_Exception e
        then (s1, inl (HTTPException 500 (JStr (import_failed_detail e))))
        else (s1, inl (Propagated e))
    | (s1, inr _) =>
        match invoke Call_get_available_themes (get_available_themes poster) s1 with
        | (s2, inl e) => (s2, inl (Propagated e))
        | (s2, inr available) =>
            if negb (theme_in (theme req) available)
            then (s2, inl (HTTPException 400
                             (JStr (theme_not_found_detail (theme req) available))))
            else
              match prepare poster req s2 with
              | (s3, inr j) => (s3, inr j)
              | (s3, inl e) => (s3, inl (except_clause e))
              end
        end
    end.

(** [create_map] from its [await] on, given how the worker's call ended. *)
Definition after_await (j : job Point) (r : exn + unit) : outcome :=
  match r with
  | inr _ => Returned (JObj [("output_file", j_out_path j)])
  | inl e => except_clause e
  end.

(** The server: the module state shared by all requests, the calls handed
    to the thread pool and not yet run, the value of [poster.THEME] each
    render found when it ran, and the answers given. *)
Record server : Type := mk_server {
  shared : hstate W Theme Point;
  pending : list (nat * job Point);
  rendered_with : list (nat * option Theme);
  answers : list (nat * outcome)
}.

(** The event loop runs request [id] up to its [await]; or a worker runs
    the [create_poster] call of request [id]. *)
Inductive event : Type :=
| Accept (id : nat) (req : CreateMapRequest)
| Render (id : nat).

Fixpoint take_job (id : nat) (l : list (nat * job Point))
  : option (job Point * list (nat * job Point)) :=
  match l with
  | [] => None
  | (i, j) :: l' =>
      if Nat.eqb i id then Some (j, l')
      else match take_job id l' with
           | Some (j', rest) => Some (j', (i, j) :: rest)
           | None => None
           end
  end.

Definition step (sv : server) (ev : event) : server :=
  match ev with
  | Accept id req =>
      match before_await req (shared sv) with
      | (s', inl o) =>
          {| shared := s'; pending := pending sv;
             rendered_with := rendered_with sv;
             answers := answers sv ++ [(id, o)] |}
      | (s', inr j) =>
          {| shared := s'; pending := pending sv ++ [(id, j)];
             rendered_with := rendered_with sv;
             answers := answers sv |}
      end
  | Render id =>
      match take_job id (pending sv) with
      | None => sv
      | Some (j, rest) =>
          let current := THEME (module_state (shared sv)) in
          let (s', r) := run_job poster j (shared sv) in
          {| shared := s'; pending := rest;
             rendered_with := rendered_with sv ++ [(id, current)];
             answers := answers sv ++ [(id, after_await j r)] |}
      end
  end.

Definition run_schedule (sv : server) (evs : list event) : server :=
  fold_left step evs sv.

Definition idle (s : hstate W Theme Point) : server :=
  {| shared := s; pending := []; rendered_with := []; answers := [] |}.

End Server.

Arguments before_await {W Theme Point} poster req.
Arguments after_await {Point} j r.
Arguments shared {W Theme Point} s.
Arguments pending {W Theme Point} s.
Arguments rendered_with {W Theme Point} s.
Arguments answers {W Theme Point} s.
Arguments step {W Theme Point} poster sv ev.
Arguments run_schedule {W Theme Point} poster sv evs.
Arguments idle {W Theme Point} s.

(** ** The runs of the handler, path by path *)

Section Runs.

Variables W Theme Point : Type.
Variable poster : poster_module W Theme Point.
Variable req : CreateMapRequest.

(** The calls of a request that is served to the end, in the order of the
    source: the theme object [t], the coordinates [pt] and the path [p] are
    what [load_theme], [get_coordinates] and [generate_output_filename]
    returned. *)
Definition full_trace (t : Theme) (pt : Point) (p : string)
  : list (call Theme Point) :=
  [Call_import;
   Call_get_available_themes;
   Call_load_theme (theme req);
   Assign_THEME t;
   Call_get_coordinates (city req) (country req);
   Call_generate_output_filename (city req) (theme req) (format req);
   Call_create_poster (city req) (country req) pt (distance req) p (format req)].

(** A collaborator of the [try] block raises [e] from the state [m]: the
    state the raising call leaves, and the steps of the block made up to
    and including that call (the steps before it having returned). *)
Inductive stops_at (m : pstate W Theme) (e : exn)
  : pstate W Theme -> list (call Theme Point) -> Prop :=
| stops_at_load_theme m1 :
    load_theme poster (theme req) m = (m1, inl e) ->
    stops_at m e m1 [Call_load_theme (theme req)]
| stops_at_get_coordinates m1 t m2 :
    load_theme poster (theme req) m = (m1, inr t) ->
    get_coordinates poster (city req) (country req)
                    (mk_pstate (Some t) (env m1)) = (m2, inl e) ->
    stops_at m e m2
      [Call_load_theme (theme req); Assign_THEME t;
       Call_get_coordinates (city req) (country req)]
| stops_at_generate_output_filename m1 t m2 pt m3 :
    load_theme poster (theme req) m = (m1, inr t) ->
    get_coordinates poster (city req) (country req)
                    (mk_pstate (Some t) (env m1)) = (m2, inr pt) ->
    generate_output_filename poster (city req) (theme req) (format req) m2
      = (m3, inl e) ->
    stops_at m e m3
      [Call_load_theme (theme req); Assign_THEME t;
       Call_get_coordinates (city req) (country req);
       Call_generate_output_filename (city req) (theme req) (format req)]
| stops_at_create_poster m1 t m2 pt m3 p m4 :
    load_theme poster (theme req) m = (m1, inr t) ->
    get_coordinates poster (city req) (country req)
                    (mk_pstate (Some t) (env m1)) = (m2, inr pt) ->
    generate_output_filename poster (city req) (theme req) (format req) m2
      = (m3, inr p) ->
    create_poster poster (city req) (country req) pt (distance req) p
                  (format req) m3 = (m4, inl e) ->
    stops_at m e m4
      [Call_load_theme (theme req); Assign_THEME t;
       Call_get_coordinates (city req) (country req);
       Call_generate_output_filename (city req) (theme req) (format req);
       Call_create_poster (city req) (country req) pt (distance req) p
                          (format req)].

(** The paths through [create_map] from a state [s], each with the state
    and the outcome it ends in. *)
Inductive run_of (s : hstate W Theme Point)
  : hstate W Theme Point * outcome -> Prop :=
| run_import_raises m1 e :
    import_poster poster (module_state s) = (m1, inl e) ->
    run_of s
      (mk_hstate m1 (calls s ++ [Call_import]),
       if isinstance_Exception e
       then HTTPException 500 (JStr (import_failed_detail e))
       else Propagated e)
| run_get_available_themes_raises m1 m2 e :
    import_poster poster (module_state s) = (m1, inr tt) ->
    get_available_themes poster m1 = (m2, inl e) ->
    run_of s
      (mk_hstate m2 (calls s ++ [Call_import; Call_get_available_themes]),
       Propagated e)
| run_theme_unknown m1 m2 available :
    import_poster poster (module_state s) = (m1, inr tt) ->
    get_available_themes poster m1 = (m2, inr available) ->
    theme_in (theme req) available = false ->
    run_of s
      (mk_hstate m2 (calls s ++ [Call_import; Call_get_available_themes]),
       HTTPException 400 (JStr (theme_not_found_detail (theme req) available)))
| run_load_theme_raises m1 m2 available m3 e :
    import_poster poster (module_state s) = (m1, inr tt) ->
    get_available_themes poster m1 = (m2, inr available) ->
    theme_in (theme req) available = true ->
    load_theme poster (theme req) m2 = (m3, inl e) ->
    run_of s
      (mk_hstate m3
         (calls s ++ [Call_import; Call_get_available_themes;
                      Call_load_theme (theme req)]),
       except_clause e)
| run_get_coordinates_raises m1 m2 available m3 t m4 e :
    import_poster poster (module_state s) = (m1, inr tt) ->
    get_available_themes poster m1 = (m2, inr available) ->
    theme_in (theme req) available = true ->
    load_theme poster (theme req) m2 = (m3, inr t) ->
    get_coordinates poster (city req) (country req)
                    (mk_pstate (Some t) (env m3)) = (m4, inl e) ->
    run_of s
      (mk_hstate m4
         (calls s ++ [Call_import; Call_get_available_themes;
                      Call_load_theme (theme req); Assign_THEME t;
                      Call_get_coordinates (city req) (country req)]),
       except_clause e)
| run_generate_output_filename_raises m1 m2 available m3 t m4 pt m5 e :
    import_poster poster (module_state s) = (m1, inr tt) ->
    get_available_themes poster m1 = (m2, inr available) ->
    theme_in (theme req) available = true ->
    load_theme poster (theme req) m2 = (m3, inr t) ->
    get_coordinates poster (city req) (country req)
                    (mk_pstate (Some t) (env m3)) = (m4, inr pt) ->
    generate_output_filename poster (city req) (theme req) (format req) m4
      = (m5, inl e) ->
    run_of s
      (mk_hstate m5
         (calls s ++ [Call_import; Call_get_available_themes;
                      Call_load_theme (theme req); Assign_THEME t;
                      Call_get_coordinates (city req) (country req);
                      Call_generate_output_filename (city req) (theme req)
                                                    (format req)]),
       except_clause e)
| run_create_poster_raises m1 m2 available m3 t m4 pt m5 p m6 e :
    import_poster poster (module_state s) = (m1, inr tt) ->
    get_available_themes poster m1 = (m2, inr available) ->
    theme_in (theme req) available = true ->
    load_theme poster (theme req) m2 = (m3, inr t) ->
    get_coordinates poster (city req) (country req)
                    (mk_pstate (Some t) (env m3)) = (m4, inr pt) ->
    generate_output_filename poster (city req) (theme req) (format req) m4
      = (m5, inr p) ->
    create_poster poster (city req) (country req) pt (distance req) p
                  (format req) m5 = (m6, inl e) ->
    run_of s (mk_hstate m6 (calls s ++ full_trace t pt p), except_clause e)
| run_success m1 m2 available m3 t m4 pt m5 p m6 :
    import_poster poster (module_state s) = (m1, inr tt) ->
    get_available_themes poster m1 = (m2, inr available) ->
    theme_in (theme req) available = true ->
    load_theme poster (theme req) m2 = (m3, inr t) ->
    get_coordinates poster (city req) (country req)
                    (mk_pstate (Some t) (env m3)) = (m4, inr pt) ->
    generate_output_filename poster (city req) (theme req) (format req) m4
      = (m5, inr p) ->
    create_poster poster (city req) (country req) pt (distance req) p
                  (format req) m5 = (m6, inr tt) ->
    run_of s
      (mk_hstate m6 (calls s ++ full_trace t pt p),
       Returned (JObj [("output_file", p)])).

(** Request [req], run from [s] up to its [await], has a render to hand
    over: every step before the [await] returned, [t] is the theme object
    [load_theme] gave it, and the steps after the assignment of line 46
    left [poster.THEME] as the handler set it. *)
Inductive ready (s : hstate W Theme Point) (t : Theme)
  : hstate W Theme Point -> job Point -> Prop :=
| ready_intro m1 m2 available m3 m4 pt m5 p :
    import_poster poster (module_state s) = (m1, inr tt) ->
    get_available_themes poster m1 = (m2, inr available) ->
    theme_in (theme req) available = true ->
    load_theme poster (theme req) m2 = (m3, inr t) ->
    get_coordinates poster (city req) (country req)
                    (mk_pstate (Some t) (env m3)) = (m4, inr pt) ->
    generate_output_filename poster (city req) (theme req) (format req) m4
      = (m5, inr p) ->
    THEME m5 = Some t ->
    ready s t
      (mk_hstate m5
         (calls s ++ [Call_import; Call_get_available_themes;
                      Call_load_theme (theme req); Assign_THEME t;
                      Call_get_coordinates (city req) (country req);
                      Call_generate_output_filename (city req) (theme req)
                                                    (format req)]))
      (mk_job (city req) (country req) pt (distance req) p (format req)).

End Runs.

Arguments full_trace {Theme Point} req t pt p.
Arguments stops_at {W Theme Point} poster req m e m' l.
Arguments run_of {W Theme Point} poster req s r.
Arguments ready {W Theme Point} poster req s t s' j.

(** ** A concrete poster module *)

(** A small stand-in for [create_map_poster], used to run the handlers on
    concrete requests: two themes, a theme object that is its own name, the
    list of files written as the only state, and at most one stage set to
    raise a given exception. *)
Module Demo.

Definition W : Type := list string.
Definition Theme : Type := string.
Definition Point : Type := (Z * Z)%type.

Inductive stage : Type :=
| AtImport | AtThemes | AtLoadTheme | AtCoordinates | AtFilename | AtRender.

Definition stage_eqb (a b : stage) : bool :=
  match a, b with
  | AtImport, AtImport | AtThemes, AtThemes | AtLoadTheme, AtLoadTheme
  | AtCoordinates, AtCoordinates | AtFilename, AtFilename
  | AtRender, AtRender => true
  | _, _ => false
  end.

Definition guarded {A : Type} (failure : option (stage * exn)) (st : stage)
    (c : comp W Theme A) : comp W Theme A :=
  fun m =>
    match failure with
    | Some (st', e) => if stage_eqb st st' then (m, inl e) else c m
    | None => c m
    end.

Definition filename (c : string) (t f : option string) : string :=
  "posters/" ++ c ++ "_" ++ fmt_optional_str t ++ "." ++ fmt_optional_str f.

Definition poster (failure : option (stage * exn))
  : poster_module W Theme Point :=
  {| import_poster := guarded failure AtImport (fun m => (m, inr tt));
     get_available_themes :=
       guarded failure AtThemes (fun m => (m, inr ["feature_based"; "minimal"]));
     load_theme := fun name =>
       guarded failure AtLoadTheme (fun m => (m, inr (fmt_optional_str name)));
     get_coordinates := fun _ _ =>
       guarded failure AtCoordinates (fun m => (m, inr (48, 2)));
     generate_output_filename := fun c t f =>
       guarded failure AtFilename (fun m => (m, inr (filename c t f)));
     create_poster := fun _ _ _ _ out_path _ =>
       guarded failure AtRender
         (fun m => (mk_pstate (THEME m) (env m ++ [out_path])%list, inr tt)) |}.

Definition working : poster_module W Theme Point := poster None.

Definition fresh : hstate W Theme Point :=
  mk_hstate (mk_pstate None []) [].

Definition runtime_error : exn :=
  {| isinstance_Exception := true;
     exc_str := "tile server unreachable";
     format_exc := "Traceback (most recent call last): RuntimeError: tile server unreachable" |}.

Definition keyboard_interrupt : exn :=
  {| isinstance_Exception := false;
     exc_str := "";
     format_exc := "Traceback (most recent call last): KeyboardInterrupt" |}.

Definition paris : CreateMapRequest :=
  {| city := "Paris"; country := "France"; theme := Some "feature_based";
     distance := Some 29000; format := Some "png" |}.

Definition tokyo_minimal : CreateMapRequest :=
  {| city := "Tokyo"; country := "Japan"; theme := Some "minimal";
     distance := Some 29000; format := Some "png" |}.

Definition paris_body : body :=
  {| b_city := Given "Paris"; b_country := Given "France";
     b_theme := Omitted; b_distance := Omitted; b_format := Omitted |}.

End Demo.

(** * Properties *)

(** ** Membership and the await split *)

Lemma theme_in_spec (t : option string) (available : list string) :
  theme_in t available = true <->
  exists name, t = Some name /\ In name available.
Proof.
  destruct t as [s|]; simpl.
  - rewrite existsb_exists. split.
    + intros [x [Hin Heq]]. apply String.eqb_eq in Heq. subst x. eauto.
    + intros [name [Hs Hin]]. injection Hs as <-.
      exists s. split; [assumption | apply String.eqb_refl].
  - split; [discriminate | intros [name [Hs _]]; discriminate].
Qed.

Lemma theme_not_in (t : option string) (available : list string) :
  (forall name, t = Some name -> ~ In name available) ->
  theme_in t available = false.
Proof.
  intros Hnot. destruct (theme_in t available) eqn:E; [|reflexivity].
  apply theme_in_spec in E. destruct E as [name [Ht Hin]].
  exfalso. exact (Hnot name Ht Hin).
Qed.

Section HandlerFacts.

Context {W Theme Point : Type}.
Variable poster : poster_module W Theme Point.

Ltac run_handler :=
  unfold create_map, before_await, try_block, prepare, run_job, bind, invoke,
    assign_THEME, ret; simpl.

(** The handler handling a request alone is its part before the [await],
    the handed-over call run at once, and its part after the [await]. *)
Lemma create_map_split (req : CreateMapRequest) (s : hstate W Theme Point) :
  create_map poster req s =
  match before_await poster req s with
  | (s1, inl o) => (s1, o)
  | (s1, inr j) =>
      let (s2, r) := run_job poster j s1 in (s2, after_await j r)
  end.
Proof.
  run_handler.
  destruct (import_poster poster (module_state s)) as [m1 [e|[]]]; simpl.
  - destruct (isinstance_Exception e); reflexivity.
  - destruct (get_available_themes poster m1) as [m2 [e|available]]; simpl;
      [reflexivity|].
    destruct (negb (theme_in (theme req) available)); [reflexivity|].
    destruct (load_theme poster (theme req) m2) as [m3 [e|t]]; simpl;
      [reflexivity|].
    destruct (get_coordinates poster (city req) (country req) _)
      as [m4 [e|pt]]; simpl; [reflexivity|].
    destruct (generate_output_filename poster (city req) (theme req)
                (format req) m4) as [m5 [e|out_path]]; simpl; [reflexivity|].
    destruct (create_poster poster (city req) (country req) pt (distance req)
                out_path (format req) m5) as [m6 [e|[]]]; reflexivity.
Qed.

(** A request served alone by the server of [step] is a call of
    [create_map]: same final state, same answer. *)
Lemma alone_is_create_map (req : CreateMapRequest) (s : hstate W Theme Point) :
  let sv := run_schedule poster (idle s) [Accept 0 req; Render 0] in
  shared sv = fst (create_map poster req s)
  /\ answers sv = [(0%nat, snd (create_map poster req s))].
Proof.
  rewrite create_map_split. unfold run_schedule, idle. simpl.
  destruct (before_await poster req s) as [s1 [o|j]]; simpl.
  - split; reflexivity.
  - destruct (run_job poster j s1) as [s2 r]. simpl. split; reflexivity.
Qed.

(** C1: when the import succeeds, the theme is one of the available
    themes and every collaborator returns, [create_map] returns exactly
    [{"output_file": p}] with [p] the string [generate_output_filename]
    returned for (city, theme, format); the same [p] is the output-path
    argument of the one [create_poster] call, and the calls are made in
    the order of the source. *)
Theorem create_map_success
    (req : CreateMapRequest) (s : hstate W Theme Point)
    (m1 m2 m3 m4 m5 m6 : pstate W Theme) (available : list string)
    (t : Theme) (pt : Point) (p : string) :
  import_poster poster (module_state s) = (m1, inr tt) ->
  get_available_themes poster m1 = (m2, inr available) ->
  (exists name, theme req = Some name /\ In name available) ->
  load_theme poster (theme req) m2 = (m3, inr t) ->
  get_coordinates poster (city req) (country req)
                  (mk_pstate (Some t) (env m3)) = (m4, inr pt) ->
  generate_output_filename poster (city req) (theme req) (format req) m4
    = (m5, inr p) ->
  create_poster poster (city req) (country req) pt (distance req) p
                (format req) m5 = (m6, inr tt) ->
  create_map poster req s =
  (mk_hstate m6
     (calls s ++
      [Call_import;
       Call_get_available_themes;
       Call_load_theme (theme req);
       Assign_THEME t;
       Call_get_coordinates (city req) (country req);
       Call_generate_output_filename (city req) (theme req) (format req);
       Call_create_poster (city req) (country req) pt (distance req) p
                          (format req)]),
   Returned (JObj [("output_file", p)])).
Proof.
  intros Himp Hthemes Hin Hload Hcoord Hname Hrender.
  apply theme_in_spec in Hin.
  run_handler.
  rewrite Himp. simpl. rewrite Hthemes. simpl. rewrite Hin. simpl.
  rewrite Hload. simpl. rewrite Hcoord. simpl. rewrite Hname. simpl.
  rewrite Hrender. simpl.
  repeat rewrite <- app_assoc. reflexivity.
Qed.

Ltac enter_handler := unfold create_map, invoke; simpl.

(** The validation of lines 40-42 when the membership test fails. *)
Lemma validation_rejects
    (req : CreateMapRequest) (s : hstate W Theme Point)
    (m1 m2 : pstate W Theme) (available : list string) :
  import_poster poster (module_state s) = (m1, inr tt) ->
  get_available_themes poster m1 = (m2, inr available) ->
  theme_in (theme req) available = false ->
  create_map poster req s =
  (mk_hstate m2 (calls s ++ [Call_import; Call_get_available_themes]),
   HTTPException 400 (JStr (theme_not_found_detail (theme req) available))).
Proof.
  intros Himp Hthemes Hnot.
  enter_handler. rewrite Himp. simpl. rewrite Hthemes. simpl.
  rewrite Hnot. simpl. rewrite <- app_assoc. reflexivity.
Qed.

(** C2: when the requested theme is not among the themes
    [get_available_themes] returned for this request, [create_map] raises
    [HTTPException(400)] whose detail is
    "Theme '<x>' not found. Available: <the themes, joined by ', '>",
    whatever the other fields are; nothing after the validation runs. *)
Theorem create_map_unknown_theme
    (req : CreateMapRequest) (s : hstate W Theme Point)
    (m1 m2 : pstate W Theme) (available : list string) :
  import_poster poster (module_state s) = (m1, inr tt) ->
  get_available_themes poster m1 = (m2, inr available) ->
  (forall name, theme req = Some name -> ~ In name available) ->
  create_map poster req s =
  (mk_hstate m2 (calls s ++ [Call_import; Call_get_available_themes]),
   HTTPException 400
     (JStr ("Theme '" ++ fmt_optional_str (theme req)
            ++ "' not found. Available: " ++ String.concat ", " available))).
Proof.
  intros Himp Hthemes Hnot. apply theme_not_in in Hnot.
  exact (validation_rejects req s m1 m2 available Himp Hthemes Hnot).
Qed.

(** C3: when the import of the poster module raises an exception [e],
    [create_map] raises [HTTPException(500)] with the detail
    "Failed to import poster module: <str(e)>", and the import is the only
    thing it has done: neither the theme validation nor any collaborator
    call is reached. *)
Theorem create_map_import_fails
    (req : CreateMapRequest) (s : hstate W Theme Point)
    (m1 : pstate W Theme) (e : exn) :
  import_poster poster (module_state s) = (m1, inl e) ->
  isinstance_Exception e = true ->
  create_map poster req s =
  (mk_hstate m1 (calls s ++ [Call_import]),
   HTTPException 500 (JStr ("Failed to import poster module: " ++ exc_str e))).
Proof.
  intros Himp Hexc. enter_handler. rewrite Himp, Hexc. reflexivity.
Qed.

(** What [collaborator_raises] says of the [try] block. *)
Lemma try_block_raises
    (req : CreateMapRequest) (m m' : pstate W Theme) (e : exn)
    (log : list (call Theme Point)) :
  collaborator_raises poster req m e m' ->
  exists log', try_block poster req (mk_hstate m log) = (mk_hstate m' log', inl e).
Proof.
  intros Hr. unfold try_block, prepare, run_job, bind, invoke, assign_THEME, ret.
  simpl.
  destruct Hr as [m1 H1 | m1 t m2 H1 H2 | m1 t m2 pt m3 H1 H2 H3
                 | m1 t m2 pt m3 out m4 H1 H2 H3 H4];
    rewrite H1; simpl; try (rewrite H2; simpl); try (rewrite H3; simpl);
    try (rewrite H4; simpl); eexists; reflexivity.
Qed.

Lemma try_block_raises_inv
    (req : CreateMapRequest) (s s' : hstate W Theme Point) (e : exn) :
  try_block poster req s = (s', inl e) ->
  collaborator_raises poster req (module_state s) e (module_state s').
Proof.
  unfold try_block, prepare, run_job, bind, invoke, assign_THEME, ret. simpl.
  destruct (load_theme poster (theme req) (module_state s))
    as [m1 [e1|t]] eqn:H1; simpl.
  { intros [= <- <-]. simpl. eapply load_theme_raises; eassumption. }
  destruct (get_coordinates poster (city req) (country req) _)
    as [m2 [e2|pt]] eqn:H2; simpl.
  { intros [= <- <-]. simpl. eapply get_coordinates_raises; eassumption. }
  destruct (generate_output_filename poster (city req) (theme req)
              (format req) m2) as [m3 [e3|out]] eqn:H3; simpl.
  { intros [= <- <-]. simpl.
    eapply generate_output_filename_raises; eassumption. }
  destruct (create_poster poster (city req) (country req) pt (distance req)
              out (format req) m3) as [m4 [e4|[]]] eqn:H4; simpl.
  { intros [= <- <-]. simpl. eapply create_poster_raises; eassumption. }
  discriminate.
Qed.

(** C4: past the import and the theme validation, when one of
    [load_theme], [get_coordinates], [generate_output_filename] and
    [create_poster] raises an exception [e], [create_map] raises
    [HTTPException(500)] whose detail is the dict
    [{"error": str(e), "traceback": <the formatted trace>}]. *)
Theorem create_map_collaborator_raises
    (req : CreateMapRequest) (s : hstate W Theme Point)
    (m1 m2 m3 : pstate W Theme) (available : list string) (e : exn) :
  import_poster poster (module_state s) = (m1, inr tt) ->
  get_available_themes poster m1 = (m2, inr available) ->
  (exists name, theme req = Some name /\ In name available) ->
  collaborator_raises poster req m2 e m3 ->
  isinstance_Exception e = true ->
  snd (create_map poster req s) =
    HTTPException 500 (JObj [("error", exc_str e); ("traceback", format_exc e)])
  /\ module_state (fst (create_map poster req s)) = m3.
Proof.
  intros Himp Hthemes Hin Hraise Hexc. apply theme_in_spec in Hin.
  enter_handler. rewrite Himp. simpl. rewrite Hthemes. simpl.
  rewrite Hin. simpl.
  destruct (try_block_raises req m2 m3 e
              ((calls s ++ [Call_import]) ++ [Call_get_available_themes]) Hraise)
    as [log' Hblock].
  rewrite Hblock. unfold except_clause. rewrite Hexc. simpl. split; reflexivity.
Qed.

(** C9: the root probe takes no input, leaves the state (the module and
    the log of calls) as it found it, and returns exactly
    [{"message": "Hello World"}] in every state. *)
Theorem root_hello_world (s : hstate W Theme Point) :
  root s = (s, Returned (JObj [("message", "Hello World")])).
Proof. reflexivity. Qed.

(** C10: the defaults stand in for an omitted key only.  A body that sends
    [theme] as [null] is parsed with [theme = None]; then, the import
    having succeeded and [get_available_themes] having returned its list
    of names, [create_map] raises the 400 of the validation (its message
    naming the theme [None]) and does not fall back to "feature_based".
    [distance] and [format] show the same asymmetry: the default when
    omitted, [None] when [null]. *)
Theorem null_is_not_the_default (b : body) (req : CreateMapRequest) :
  parse_request b = inr req ->
  (b_theme b = Omitted -> theme req = Some "feature_based")
  /\ (b_distance b = Omitted -> distance req = Some 29000)
  /\ (b_format b = Omitted -> format req = Some "png")
  /\ (b_distance b = Null -> distance req = None)
  /\ (b_format b = Null -> format req = None)
  /\ (b_theme b = Null ->
      theme req = None
      /\ forall (s : hstate W Theme Point) (m1 m2 : pstate W Theme)
                (available : list string),
          import_poster poster (module_state s) = (m1, inr tt) ->
          get_available_themes poster m1 = (m2, inr available) ->
          post_create_map poster b s =
          (mk_hstate m2 (calls s ++ [Call_import; Call_get_available_themes]),
           Handled
             (HTTPException 400
                (JStr ("Theme 'None' not found. Available: "
                       ++ String.concat ", " available))))).
Proof.
  intros Hparse. pose proof Hparse as Hreq. unfold parse_request in Hreq.
  destruct (required_field "city" (b_city b)) as [ec|c]; [discriminate|].
  destruct (required_field "country" (b_country b)) as [ek|k];
    [discriminate|].
  injection Hreq as <-. simpl.
  split; [intros ->; reflexivity|].
  split; [intros ->; reflexivity|].
  split; [intros ->; reflexivity|].
  split; [intros ->; reflexivity|].
  split; [intros ->; reflexivity|].
  intros Hnull. rewrite Hnull. simpl. split; [reflexivity|].
  intros s m1 m2 available Himp Hthemes.
  unfold post_create_map. rewrite Hparse.
  rewrite (validation_rejects _ s m1 m2 available Himp Hthemes);
    simpl; rewrite Hnull; reflexivity.
Qed.

End HandlerFacts.

(** ** The request model *)


(** C8, as the code has it: [distance] is an optional integer with the
    default 29000 for an omitted key, and no bound is declared on either
    side.  A body with [city] and [country] passes validation whatever
    integer it carries as [distance] (zero and the negative ones included);
    the request holds that integer unchanged, and, the steps before the
    render having returned, it is the distance argument of the
    [create_poster] call. *)
Theorem distance_is_unbounded {W Theme Point : Type}
    (poster : poster_module W Theme Point) (b : body) (c k : string)
    (s : hstate W Theme Point) :
  b_city b = Given c ->
  b_country b = Given k ->
  exists req,
    parse_request b = inr req
    /\ distance req =
       match b_distance b with
       | Omitted => Some 29000
       | Null => None
       | Given d => Some d
       end
    /\ forall (m1 m2 m3 m4 m5 : pstate W Theme) (available : list string)
              (t : Theme) (pt : Point) (p : string),
         import_poster poster (module_state s) = (m1, inr tt) ->
         get_available_themes poster m1 = (m2, inr available) ->
         theme_in (theme req) available = true ->
         load_theme poster (theme req) m2 = (m3, inr t) ->
         get_coordinates poster c k (mk_pstate (Some t) (env m3)) = (m4, inr pt) ->
         generate_output_filename poster c (theme req) (format req) m4
           = (m5, inr p) ->
         calls (fst (post_create_map poster b s)) =
         (calls s ++
          [Call_import;
           Call_get_available_themes;
           Call_load_theme (theme req);
           Assign_THEME t;
           Call_get_coordinates c k;
           Call_generate_output_filename c (theme req) (format req);
           Call_create_poster c k pt
             match b_distance b with
             | Omitted => Some 29000
             | Null => None
             | Given d => Some d
             end
             p (format req)])%list.
Proof.
  intros Hc Hk.
  assert (Hparse : parse_request b =
                   inr {| city := c; country := k;
                          theme := optional_field "feature_based" (b_theme b);
                          distance := optional_field 29000 (b_distance b);
                          format := optional_field "png" (b_format b) |}).
  { unfold parse_request. rewrite Hc, Hk. reflexivity. }
  eexists. split; [exact Hparse|]. simpl.
  split; [destruct (b_distance b); reflexivity|].
  intros m1 m2 m3 m4 m5 available t pt p Himp Hthemes Hin Hload Hcoord Hname.
  unfold post_create_map. rewrite Hparse.
  unfold create_map, try_block, prepare, run_job, bind, invoke, assign_THEME,
    ret. simpl.
  rewrite Himp. simpl. rewrite Hthemes. simpl. rewrite Hin. simpl.
  rewrite Hload. simpl. rewrite Hcoord. simpl. rewrite Hname. simpl.
  destruct (create_poster poster c k pt _ p _ m5) as [m6 [e|[]]]; simpl;
    repeat rewrite <- app_assoc; simpl;
    destruct (b_distance b); reflexivity.
Qed.

(** ** Runs on the concrete module *)

Lemma create_map_success_paris :
  create_map Demo.working Demo.paris Demo.fresh =
  (mk_hstate (mk_pstate (Some "feature_based") ["posters/Paris_feature_based.png"])
     [Call_import;
      Call_get_available_themes;
      Call_load_theme (Some "feature_based");
      Assign_THEME "feature_based";
      Call_get_coordinates "Paris" "France";
      Call_generate_output_filename "Paris" (Some "feature_based") (Some "png");
      Call_create_poster "Paris" "France" (48, 2) (Some 29000)
                         "posters/Paris_feature_based.png" (Some "png")],
   Returned (JObj [("output_file", "posters/Paris_feature_based.png")])).
Proof.
  refine (create_map_success Demo.working Demo.paris Demo.fresh
            (mk_pstate None []) (mk_pstate None []) (mk_pstate None [])
            (mk_pstate (Some "feature_based") [])
            (mk_pstate (Some "feature_based") [])
            (mk_pstate (Some "feature_based") ["posters/Paris_feature_based.png"])
            ["feature_based"; "minimal"] "feature_based" (48, 2)
            "posters/Paris_feature_based.png"
            eq_refl eq_refl _ eq_refl eq_refl eq_refl eq_refl).
  exists "feature_based". split; [reflexivity | left; reflexivity].
Defined.

Lemma create_map_unknown_theme_neon :
  create_map Demo.working
    {| city := "Paris"; country := "France"; theme := Some "neon";
       distance := None; format := Some "gif" |} Demo.fresh =
  (mk_hstate (mk_pstate None []) [Call_import; Call_get_available_themes],
   HTTPException 400
     (JStr "Theme 'neon' not found. Available: feature_based, minimal")).
Proof.
  refine (create_map_unknown_theme Demo.working _ Demo.fresh
            (mk_pstate None []) (mk_pstate None [])
            ["feature_based"; "minimal"] eq_refl eq_refl _).
  intros name [= <-] [H | [H | []]]; discriminate H.
Defined.

Lemma create_map_import_fails_paris :
  create_map (Demo.poster (Some (Demo.AtImport, Demo.runtime_error)))
             Demo.paris Demo.fresh =
  (mk_hstate (mk_pstate None []) [Call_import],
   HTTPException 500
     (JStr "Failed to import poster module: tile server unreachable")).
Proof.
  exact (create_map_import_fails
           (Demo.poster (Some (Demo.AtImport, Demo.runtime_error)))
           Demo.paris Demo.fresh (mk_pstate None []) Demo.runtime_error
           eq_refl eq_refl).
Defined.

Lemma create_map_render_raises_paris :
  snd (create_map (Demo.poster (Some (Demo.AtRender, Demo.runtime_error)))
                  Demo.paris Demo.fresh) =
    HTTPException 500
      (JObj [("error", "tile server unreachable");
             ("traceback", format_exc Demo.runtime_error)])
  /\ module_state
       (fst (create_map (Demo.poster (Some (Demo.AtRender, Demo.runtime_error)))
                        Demo.paris Demo.fresh))
     = mk_pstate (Some "feature_based") [].
Proof.
  refine (create_map_collaborator_raises
            (Demo.poster (Some (Demo.AtRender, Demo.runtime_error)))
            Demo.paris Demo.fresh (mk_pstate None []) (mk_pstate None [])
            (mk_pstate (Some "feature_based") [])
            ["feature_based"; "minimal"] Demo.runtime_error
            eq_refl eq_refl _ _ eq_refl).
  - exists "feature_based". split; [reflexivity | left; reflexivity].
  - eapply create_poster_raises; reflexivity.
Defined.

(** C5, on the code: the call of [get_available_themes] (line 40) is
    outside both [try] statements.  Here the import succeeds and that call
    raises an instance of [Exception]: the exception leaves [create_map] as
    it is, caught by no clause and converted into no [HTTPException]. *)
Lemma get_available_themes_exception_propagates :
  create_map (Demo.poster (Some (Demo.AtThemes, Demo.runtime_error)))
             Demo.paris Demo.fresh =
  (mk_hstate (mk_pstate None []) [Call_import; Call_get_available_themes],
   Propagated Demo.runtime_error)
  /\ isinstance_Exception Demo.runtime_error = true.
Proof. split; reflexivity. Qed.


(** A body whose [distance] is negative passes validation, and the negative
    distance is handed to [create_poster]. *)
Lemma negative_distance_is_accepted :
  parse_request
    {| b_city := Given "Paris"; b_country := Given "France";
       b_theme := Omitted; b_distance := Given (-5); b_format := Omitted |}
  = inr {| city := "Paris"; country := "France";
           theme := Some "feature_based"; distance := Some (-5);
           format := Some "png" |}
  /\ -5 <= 0
  /\ post_create_map Demo.working
       {| b_city := Given "Paris"; b_country := Given "France";
          b_theme := Omitted; b_distance := Given (-5); b_format := Omitted |}
       Demo.fresh =
     (mk_hstate
        (mk_pstate (Some "feature_based") ["posters/Paris_feature_based.png"])
        [Call_import;
         Call_get_available_themes;
         Call_load_theme (Some "feature_based");
         Assign_THEME "feature_based";
         Call_get_coordinates "Paris" "France";
         Call_generate_output_filename "Paris" (Some "feature_based") (Some "png");
         Call_create_poster "Paris" "France" (48, 2) (Some (-5))
                            "posters/Paris_feature_based.png" (Some "png")],
      Handled (Returned (JObj [("output_file", "posters/Paris_feature_based.png")]))).
Proof. split; [reflexivity | split; [lia | reflexivity]]. Qed.

Lemma distance_is_unbounded_zero :
  parse_request
    {| b_city := Given "Paris"; b_country := Given "France";
       b_theme := Omitted; b_distance := Given 0; b_format := Omitted |}
  = inr {| city := "Paris"; country := "France";
           theme := Some "feature_based"; distance := Some 0;
           format := Some "png" |}
  /\ calls
       (fst (post_create_map Demo.working
               {| b_city := Given "Paris"; b_country := Given "France";
                  b_theme := Omitted; b_distance := Given 0;
                  b_format := Omitted |} Demo.fresh))
     = [Call_import;
        Call_get_available_themes;
        Call_load_theme (Some "feature_based");
        Assign_THEME "feature_based";
        Call_get_coordinates "Paris" "France";
        Call_generate_output_filename "Paris" (Some "feature_based") (Some "png");
        Call_create_poster "Paris" "France" (48, 2) (Some 0)
                           "posters/Paris_feature_based.png" (Some "png")].
Proof.
  destruct (distance_is_unbounded Demo.working
              {| b_city := Given "Paris"; b_country := Given "France";
                 b_theme := Omitted; b_distance := Given 0;
                 b_format := Omitted |} "Paris" "France" Demo.fresh
              eq_refl eq_refl)
    as [req [Hparse [Hdistance Hrun]]].
  injection Hparse as <-.
  split; [reflexivity|].
  exact (Hrun (mk_pstate None []) (mk_pstate None []) (mk_pstate None [])
           (mk_pstate (Some "feature_based") [])
           (mk_pstate (Some "feature_based") [])
           ["feature_based"; "minimal"] "feature_based" (48, 2)
           "posters/Paris_feature_based.png"
           eq_refl eq_refl eq_refl eq_refl eq_refl eq_refl).
Defined.

(** A body that sends all three optional keys as [null], run on the
    concrete module: the client gets the 400, not a poster in the default
    theme. *)
Lemma null_theme_is_rejected :
  post_create_map Demo.working
    {| b_city := Given "Paris"; b_country := Given "France";
       b_theme := Null; b_distance := Null; b_format := Null |} Demo.fresh =
  (mk_hstate (mk_pstate None []) [Call_import; Call_get_available_themes],
   Handled
     (HTTPException 400
        (JStr "Theme 'None' not found. Available: feature_based, minimal"))).
Proof.
  destruct (null_is_not_the_default Demo.working
              {| b_city := Given "Paris"; b_country := Given "France";
                 b_theme := Null; b_distance := Null; b_format := Null |}
              {| city := "Paris"; country := "France"; theme := None;
                 distance := None; format := None |} eq_refl)
    as (_ & _ & _ & _ & _ & Hnull).
  destruct (Hnull eq_refl) as [_ Hrun].
  exact (Hrun Demo.fresh (mk_pstate None []) (mk_pstate None [])
           ["feature_based"; "minimal"] eq_refl eq_refl).
Defined.

(** ** Two requests in flight *)

(** Handled one after the other, each request is rendered while
    [poster.THEME] holds its own theme. *)
Example one_after_the_other :
  rendered_with
    (run_schedule Demo.working (idle Demo.fresh)
       [Accept 0 Demo.paris; Render 0; Accept 1 Demo.tokyo_minimal; Render 1])
  = [(0%nat, Some "feature_based"); (1%nat, Some "minimal")].
Proof. reflexivity. Qed.

(** C6, on the code: the two requests are both accepted before the worker
    runs the render of the first.  The second request has by then assigned
    [poster.THEME], so the render of the "feature_based" request runs while
    the slot holds the theme "minimal"; both requests are answered with
    success. *)
Theorem concurrent_requests_share_theme :
  let final :=
    run_schedule Demo.working (idle Demo.fresh)
      [Accept 0 Demo.paris; Accept 1 Demo.tokyo_minimal; Render 0; Render 1] in
  rendered_with final = [(0%nat, Some "minimal"); (1%nat, Some "minimal")]
  /\ answers final =
     [(0%nat, Returned (JObj [("output_file", "posters/Paris_feature_based.png")]));
      (1%nat, Returned (JObj [("output_file", "posters/Tokyo_minimal.png")]))].
Proof. split; reflexivity. Qed.

(** * The handler, path by path *)

Section Paths.

Context {W Theme Point : Type}.
Variable poster : poster_module W Theme Point.

(** Every call of [create_map] follows one of the paths of [run_of]. *)
Lemma create_map_run (req : CreateMapRequest) (s : hstate W Theme Point) :
  run_of poster req s (create_map poster req s).
Proof.
  unfold create_map, try_block, prepare, run_job, bind, invoke, assign_THEME,
    ret; simpl.
  destruct (import_poster poster (module_state s)) as [m1 [e|[]]] eqn:Himp;
    simpl.
  { destruct (isinstance_Exception e) eqn:He;
      pose proof (run_import_raises _ _ _ poster req s m1 e Himp) as R;
      rewrite He in R; exact R. }
  destruct (get_available_themes poster m1) as [m2 [e|available]] eqn:Hth;
    simpl; repeat rewrite <- app_assoc; simpl.
  { eapply run_get_available_themes_raises; eassumption. }
  destruct (theme_in (theme req) available) eqn:Hin; simpl.
  2:{ eapply run_theme_unknown; eassumption. }
  destruct (load_theme poster (theme req) m2) as [m3 [e|t]] eqn:Hload; simpl;
    repeat rewrite <- app_assoc; simpl.
  { eapply run_load_theme_raises; eassumption. }
  destruct (get_coordinates poster (city req) (country req) _)
    as [m4 [e|pt]] eqn:Hco; simpl; repeat rewrite <- app_assoc; simpl.
  { eapply run_get_coordinates_raises; eassumption. }
  destruct (generate_output_filename poster (city req) (theme req)
              (format req) m4) as [m5 [e|p]] eqn:Hname; simpl;
    repeat rewrite <- app_assoc; simpl.
  { eapply run_generate_output_filename_raises; eassumption. }
  destruct (create_poster poster (city req) (country req) pt (distance req) p
              (format req) m5) as [m6 [e|[]]] eqn:Hrender; simpl;
    repeat rewrite <- app_assoc; simpl.
  { eapply run_create_poster_raises; eassumption. }
  eapply run_success; eassumption.
Qed.

Lemma except_clause_cases (e : exn) :
  (isinstance_Exception e = true
   /\ except_clause e =
      HTTPException 500 (JObj [("error", exc_str e); ("traceback", format_exc e)]))
  \/ (isinstance_Exception e = false /\ except_clause e = Propagated e).
Proof.
  unfold except_clause. destruct (isinstance_Exception e); [left | right];
    split; reflexivity.
Qed.

(** X1: [except Exception] of the import lets through what is not an
    instance of [Exception]: such an exception of the import leaves
    [create_map] as it is, not as an [HTTPException], and nothing after the
    import runs. *)
Theorem import_base_exception_propagates
    (req : CreateMapRequest) (s : hstate W Theme Point)
    (m1 : pstate W Theme) (e : exn) :
  import_poster poster (module_state s) = (m1, inl e) ->
  isinstance_Exception e = false ->
  create_map poster req s =
  (mk_hstate m1 (calls s ++ [Call_import]), Propagated e).
Proof.
  intros Himp He. unfold create_map, invoke. simpl. rewrite Himp, He.
  reflexivity.
Qed.

(** X2: the [except Exception] clause of the [try] block lets through what
    is not an instance of [Exception]: such an exception of [load_theme],
    [get_coordinates], [generate_output_filename] or [create_poster] leaves
    [create_map] unconverted, the module state being left as the raising
    call left it. *)
Theorem collaborator_base_exception_propagates
    (req : CreateMapRequest) (s : hstate W Theme Point)
    (m1 m2 m3 : pstate W Theme) (available : list string) (e : exn) :
  import_poster poster (module_state s) = (m1, inr tt) ->
  get_available_themes poster m1 = (m2, inr available) ->
  theme_in (theme req) available = true ->
  collaborator_raises poster req m2 e m3 ->
  isinstance_Exception e = false ->
  snd (create_map poster req s) = Propagated e
  /\ module_state (fst (create_map poster req s)) = m3.
Proof.
  intros Himp Hthemes Hin Hraise He.
  unfold create_map, invoke. simpl. rewrite Himp. simpl.
  rewrite Hthemes. simpl. rewrite Hin. simpl.
  destruct (try_block_raises poster req m2 m3 e
              ((calls s ++ [Call_import]) ++ [Call_get_available_themes]) Hraise)
    as [log' Hblock].
  rewrite Hblock. unfold except_clause. rewrite He. split; reflexivity.
Qed.

(** X3: the call of [get_available_themes] stands outside both [try]
    statements: an exception it raises, of whatever class, leaves
    [create_map] as it is, after the import and that call and nothing else. *)
Theorem theme_listing_raises_unconverted
    (req : CreateMapRequest) (s : hstate W Theme Point)
    (m1 m2 : pstate W Theme) (e : exn) :
  import_poster poster (module_state s) = (m1, inr tt) ->
  get_available_themes poster m1 = (m2, inl e) ->
  create_map poster req s =
  (mk_hstate m2 (calls s ++ [Call_import; Call_get_available_themes]),
   Propagated e).
Proof.
  intros Himp Hthemes. unfold create_map, invoke. simpl. rewrite Himp. simpl.
  rewrite Hthemes. simpl. rewrite <- app_assoc. reflexivity.
Qed.

(** X4: an exception leaves [create_map] unconverted in three ways only:
    the import raised it and it is no instance of [Exception]; or
    [get_available_themes] raised it; or, the theme being available, one of
    the four collaborators of the [try] block raised it and it is no
    instance of [Exception]. *)
Theorem propagated_only_from
    (req : CreateMapRequest) (s : hstate W Theme Point) (e : exn) :
  snd (create_map poster req s) = Propagated e ->
  (exists m1,
      import_poster poster (module_state s) = (m1, inl e)
      /\ isinstance_Exception e = false)
  \/ (exists m1 m2,
         import_poster poster (module_state s) = (m1, inr tt)
         /\ get_available_themes poster m1 = (m2, inl e))
  \/ (exists m1 m2 available m3,
         import_poster poster (module_state s) = (m1, inr tt)
         /\ get_available_themes poster m1 = (m2, inr available)
         /\ theme_in (theme req) available = true
         /\ collaborator_raises poster req m2 e m3
         /\ isinstance_Exception e = false).
Proof.
  intros Hout. pose proof (create_map_run req s) as R.
  destruct (create_map poster req s) as [s' o]. simpl in Hout. subst o.
  inversion R as
    [ m1 e0 Himp Heq
    | m1 m2 e0 Himp Hth Heq
    | m1 m2 av Himp Hth Hin Heq
    | m1 m2 av m3 e0 Himp Hth Hin H1 Heq
    | m1 m2 av m3 t m4 e0 Himp Hth Hin H1 H2 Heq
    | m1 m2 av m3 t m4 pt m5 e0 Himp Hth Hin H1 H2 H3 Heq
    | m1 m2 av m3 t m4 pt m5 p m6 e0 Himp Hth Hin H1 H2 H3 H4 Heq
    | m1 m2 av m3 t m4 pt m5 p m6 Himp Hth Hin H1 H2 H3 H4 Heq ].
  - left. destruct (isinstance_Exception e0) eqn:He0; [discriminate|].
    injection H0 as <-. exists m1. split; assumption.
  - right; left. exists m1, m2. split; assumption.
  - right; right. destruct (except_clause_cases e0) as [[_ Hc]|[He0 Hc]];
      rewrite Hc in H0; [discriminate|]. injection H0 as <-.
    exists m1, m2, av, m3. repeat split; try assumption.
    eapply load_theme_raises; eassumption.
  - right; right. destruct (except_clause_cases e0) as [[_ Hc]|[He0 Hc]];
      rewrite Hc in H0; [discriminate|]. injection H0 as <-.
    exists m1, m2, av, m4. repeat split; try assumption.
    eapply get_coordinates_raises; eassumption.
  - right; right. destruct (except_clause_cases e0) as [[_ Hc]|[He0 Hc]];
      rewrite Hc in H0; [discriminate|]. injection H0 as <-.
    exists m1, m2, av, m5. repeat split; try assumption.
    eapply generate_output_filename_raises; eassumption.
  - right; right. destruct (except_clause_cases e0) as [[_ Hc]|[He0 Hc]];
      rewrite Hc in H0; [discriminate|]. injection H0 as <-.
    exists m1, m2, av, m6. repeat split; try assumption.
    eapply create_poster_raises; eassumption.
Qed.

(** Case analysis of a call of [create_map] along [run_of]. *)
Ltac by_paths req s :=
  let R := fresh "R" in
  pose proof (create_map_run req s) as R;
  inversion R;
  match goal with
  | H : _ = create_map poster req s |- _ => rewrite <- H in *; clear H
  end;
  clear R; simpl in *.

Ltac split_on_class :=
  match goal with
  | H : context [except_clause ?e] |- _ =>
      unfold except_clause in H; destruct (isinstance_Exception e) eqn:?
  | H : context [isinstance_Exception ?e] |- _ =>
      destruct (isinstance_Exception e) eqn:?
  end.

(** X5: a 400 is the answer to an unknown theme and to nothing else: when
    [create_map] raises [HTTPException(400)], the import succeeded,
    [get_available_themes] returned a list without the requested theme, the
    detail is the "not found" message for that list, and no call was made
    after [get_available_themes]. *)
Theorem client_error_only_for_unknown_theme
    (req : CreateMapRequest) (s : hstate W Theme Point) (d : json) :
  snd (create_map poster req s) = HTTPException 400 d ->
  exists m1 m2 available,
    import_poster poster (module_state s) = (m1, inr tt)
    /\ get_available_themes poster m1 = (m2, inr available)
    /\ theme_in (theme req) available = false
    /\ create_map poster req s =
       (mk_hstate m2 (calls s ++ [Call_import; Call_get_available_themes]),
        HTTPException 400
          (JStr (theme_not_found_detail (theme req) available))).
Proof.
  intros Hout. by_paths req s; try discriminate;
    try (split_on_class; discriminate).
  injection Hout as <-. eexists _, _, _. repeat split; eassumption.
Qed.

(** X6: a success payload is returned only at the end of the whole
    sequence: when [create_map] returns, the import, the validation and the
    four collaborators all returned, the payload is [{"output_file": p}]
    for the [p] that [generate_output_filename] returned, and the log holds
    the seven steps in order, [create_poster] last and with that [p]. *)
Theorem success_means_rendered
    (req : CreateMapRequest) (s : hstate W Theme Point) (v : json) :
  snd (create_map poster req s) = Returned v ->
  exists m1 m2 available m3 t m4 pt m5 p m6,
    import_poster poster (module_state s) = (m1, inr tt)
    /\ get_available_themes poster m1 = (m2, inr available)
    /\ theme_in (theme req) available = true
    /\ load_theme poster (theme req) m2 = (m3, inr t)
    /\ get_coordinates poster (city req) (country req)
                       (mk_pstate (Some t) (env m3)) = (m4, inr pt)
    /\ generate_output_filename poster (city req) (theme req) (format req) m4
       = (m5, inr p)
    /\ create_poster poster (city req) (country req) pt (distance req) p
                     (format req) m5 = (m6, inr tt)
    /\ create_map poster req s =
       (mk_hstate m6 (calls s ++ full_trace req t pt p),
        Returned (JObj [("output_file", p)])).
Proof.
  intros Hout. by_paths req s; try discriminate;
    try (split_on_class; discriminate).
  injection Hout as <-. eexists _, _, _, _, _, _, _, _, _, _.
  repeat split; eassumption.
Qed.

(** X7: nothing runs after a failure in the [try] block.  When one of
    [load_theme], [get_coordinates], [generate_output_filename] and
    [create_poster] raises, [create_map] stops at that call: the log holds
    the import, the listing of the themes and the steps of the block up to
    and including the raising call, in the order of the source and each
    once; the module state is the one the raising call left; and the
    outcome is the one of the [except] clause, the 500 for an instance of
    [Exception] and the exception itself otherwise. *)
Theorem create_map_stops_at_the_failure
    (req : CreateMapRequest) (s : hstate W Theme Point)
    (m1 m2 m3 : pstate W Theme) (available : list string) (e : exn)
    (l : list (call Theme Point)) :
  import_poster poster (module_state s) = (m1, inr tt) ->
  get_available_themes poster m1 = (m2, inr available) ->
  theme_in (theme req) available = true ->
  stops_at poster req m2 e m3 l ->
  create_map poster req s =
  (mk_hstate m3
     (calls s ++ [Call_import; Call_get_available_themes] ++ l)%list,
   if isinstance_Exception e
   then HTTPException 500
          (JObj [("error", exc_str e); ("traceback", format_exc e)])
   else Propagated e).
Proof.
  intros Himp Hthemes Hin Hstop.
  unfold create_map, try_block, prepare, run_job, bind, invoke, assign_THEME,
    ret, except_clause. simpl.
  rewrite Himp. simpl. rewrite Hthemes. simpl. rewrite Hin. simpl.
  destruct Hstop as [m3 H1 | m3 t m4 H1 H2 | m3 t m4 pt m5 H1 H2 H3
                    | m3 t m4 pt m5 p m6 H1 H2 H3 H4];
    rewrite H1; simpl; try (rewrite H2; simpl); try (rewrite H3; simpl);
    try (rewrite H4; simpl); repeat rewrite <- app_assoc; reflexivity.
Qed.

(** X8: a 500 has two sources only.  When [create_map] raises
    [HTTPException(500)], either the import raised an instance [e] of
    [Exception] and the detail is the string
    "Failed to import poster module: <str(e)>", or the theme was available
    and one of the four collaborators of the [try] block raised an instance
    [e] of [Exception] and the detail is the dict of [str(e)] and the
    trace. *)
Theorem server_error_only_from
    (req : CreateMapRequest) (s : hstate W Theme Point) (d : json) :
  snd (create_map poster req s) = HTTPException 500 d ->
  (exists m1 e,
      import_poster poster (module_state s) = (m1, inl e)
      /\ isinstance_Exception e = true
      /\ d = JStr ("Failed to import poster module: " ++ exc_str e))
  \/ (exists m1 m2 available m3 e,
         import_poster poster (module_state s) = (m1, inr tt)
         /\ get_available_themes poster m1 = (m2, inr available)
         /\ theme_in (theme req) available = true
         /\ collaborator_raises poster req m2 e m3
         /\ isinstance_Exception e = true
         /\ d = JObj [("error", exc_str e); ("traceback", format_exc e)]).
Proof.
  intros Hout. by_paths req s; try discriminate;
    try (split_on_class; try discriminate; injection Hout as <-).
  - left. eexists _, _. repeat split; eassumption.
  - right. eexists _, _, _, _, _. repeat split; try eassumption.
    eapply load_theme_raises; eassumption.
  - right. eexists _, _, _, _, _. repeat split; try eassumption.
    eapply get_coordinates_raises; eassumption.
  - right. eexists _, _, _, _, _. repeat split; try eassumption.
    eapply generate_output_filename_raises; eassumption.
  - right. eexists _, _, _, _, _. repeat split; try eassumption.
    eapply create_poster_raises; eassumption.
Qed.

(** X9: [create_map] raises no [HTTPException] with a status other than
    400 and 500. *)
Theorem status_is_400_or_500
    (req : CreateMapRequest) (s : hstate W Theme Point)
    (code : Z) (d : json) :
  snd (create_map poster req s) = HTTPException code d ->
  code = 400 \/ code = 500.
Proof.
  intros Hout. by_paths req s; try discriminate;
    try (split_on_class; try discriminate);
    injection Hout as <- _; auto.
Qed.

(** X13: a body in which [city] or [country] is missing or [null] never
    reaches the handler: it is rejected with a non-empty list of errors, the
    state is left as it was and no call is logged, the import included. *)
Theorem invalid_body_never_reaches_handler
    (b : body) (s : hstate W Theme Point) :
  (forall c, b_city b <> Given c) \/ (forall k, b_country b <> Given k) ->
  exists errors,
    errors <> []
    /\ post_create_map poster b s = (s, Rejected errors).
Proof.
  intros Hbad. unfold post_create_map, parse_request.
  destruct (b_city b) as [| |c] eqn:Hc; simpl;
    destruct (b_country b) as [| |k] eqn:Hk; simpl;
    try (eexists; split; [|reflexivity]; discriminate).
  exfalso. destruct Hbad as [Hbad|Hbad]; [exact (Hbad c eq_refl)|].
  exact (Hbad k eq_refl).
Qed.

(** ** Requests in flight together, on any poster module *)

Lemma ready_before_await
    (req : CreateMapRequest) (s s' : hstate W Theme Point) (t : Theme)
    (j : job Point) :
  ready poster req s t s' j ->
  before_await poster req s = (s', inr j)
  /\ THEME (module_state s') = Some t.
Proof.
  intros [m1 m2 available m3 m4 pt m5 p Himp Hth Hin Hload Hco Hname Hslot].
  split; [|exact Hslot].
  unfold before_await, prepare, bind, invoke, assign_THEME, ret. simpl.
  rewrite Himp. simpl. rewrite Hth. simpl. rewrite Hin. simpl.
  rewrite Hload. simpl. rewrite Hco. simpl. rewrite Hname. simpl.
  repeat rewrite <- app_assoc. reflexivity.
Qed.

(** X10: the theme slot is shared by the requests in flight.  When a
    request [a] has reached its [await] and a request [b] then runs up to
    its own [await], the render of [a], run after that, finds in
    [poster.THEME] the theme object loaded for [b], whatever theme [a] asked
    for. *)
Theorem render_sees_later_request
    (a b : CreateMapRequest) (s s1 s2 : hstate W Theme Point)
    (ja jb : job Point) (tb : Theme) (i j : nat) :
  before_await poster a s = (s1, inr ja) ->
  ready poster b s1 tb s2 jb ->
  rendered_with
    (run_schedule poster (idle s) [Accept i a; Accept j b; Render i])
  = [(i, Some tb)].
Proof.
  intros Ha Hb. apply ready_before_await in Hb. destruct Hb as [Hb Hslot].
  unfold run_schedule, idle. simpl. rewrite Ha. simpl. rewrite Hb. simpl.
  rewrite Nat.eqb_refl. simpl.
  destruct (run_job poster ja s2) as [s3 r]. simpl. rewrite Hslot.
  reflexivity.
Qed.

(** X11: served one after the other, each request is rendered with its own
    theme: when the render of [a] runs before [b] is accepted, the render
    of [a] finds in [poster.THEME] the theme loaded for [a] and the render
    of [b] the theme loaded for [b]. *)
Theorem one_at_a_time_keeps_theme
    (a b : CreateMapRequest) (s s1 s2 s3 : hstate W Theme Point)
    (ja jb : job Point) (ta tb : Theme) (r : exn + unit) (i j : nat) :
  ready poster a s ta s1 ja ->
  run_job poster ja s1 = (s2, r) ->
  ready poster b s2 tb s3 jb ->
  rendered_with
    (run_schedule poster (idle s) [Accept i a; Render i; Accept j b; Render j])
  = [(i, Some ta); (j, Some tb)].
Proof.
  intros Ha Hrun Hb.
  apply ready_before_await in Ha. destruct Ha as [Ha Hslota].
  apply ready_before_await in Hb. destruct Hb as [Hb Hslotb].
  unfold run_schedule, idle. simpl. rewrite Ha. simpl.
  rewrite Nat.eqb_refl. rewrite Hrun. simpl. rewrite Hb. simpl.
  rewrite Nat.eqb_refl.
  destruct (run_job poster jb s3) as [s4 r']. simpl.
  rewrite Hslota, Hslotb. reflexivity.
Qed.

End Paths.

(** ** The paths, run on the concrete module *)

Lemma import_interrupted :
  create_map (Demo.poster (Some (Demo.AtImport, Demo.keyboard_interrupt)))
             Demo.paris Demo.fresh =
  (mk_hstate (mk_pstate None []) [Call_import],
   Propagated Demo.keyboard_interrupt).
Proof.
  exact (import_base_exception_propagates
           (Demo.poster (Some (Demo.AtImport, Demo.keyboard_interrupt)))
           Demo.paris Demo.fresh (mk_pstate None []) Demo.keyboard_interrupt
           eq_refl eq_refl).
Defined.

Lemma geocoding_interrupted :
  snd (create_map (Demo.poster (Some (Demo.AtCoordinates, Demo.keyboard_interrupt)))
                  Demo.paris Demo.fresh) = Propagated Demo.keyboard_interrupt
  /\ module_state
       (fst (create_map
               (Demo.poster (Some (Demo.AtCoordinates, Demo.keyboard_interrupt)))
               Demo.paris Demo.fresh))
     = mk_pstate (Some "feature_based") [].
Proof.
  refine (collaborator_base_exception_propagates
            (Demo.poster (Some (Demo.AtCoordinates, Demo.keyboard_interrupt)))
            Demo.paris Demo.fresh (mk_pstate None []) (mk_pstate None [])
            (mk_pstate (Some "feature_based") [])
            ["feature_based"; "minimal"] Demo.keyboard_interrupt
            eq_refl eq_refl eq_refl _ eq_refl).
  eapply get_coordinates_raises; reflexivity.
Defined.

Lemma theme_listing_interrupted :
  create_map (Demo.poster (Some (Demo.AtThemes, Demo.keyboard_interrupt)))
             Demo.tokyo_minimal Demo.fresh =
  (mk_hstate (mk_pstate None []) [Call_import; Call_get_available_themes],
   Propagated Demo.keyboard_interrupt).
Proof.
  exact (theme_listing_raises_unconverted
           (Demo.poster (Some (Demo.AtThemes, Demo.keyboard_interrupt)))
           Demo.tokyo_minimal Demo.fresh (mk_pstate None []) (mk_pstate None [])
           Demo.keyboard_interrupt eq_refl eq_refl).
Defined.

Lemma propagated_from_render :
  exists m1 m2 available m3,
    import_poster (Demo.poster (Some (Demo.AtRender, Demo.keyboard_interrupt)))
                  (module_state Demo.fresh) = (m1, inr tt)
    /\ get_available_themes
         (Demo.poster (Some (Demo.AtRender, Demo.keyboard_interrupt))) m1
       = (m2, inr available)
    /\ theme_in (theme Demo.paris) available = true
    /\ collaborator_raises
         (Demo.poster (Some (Demo.AtRender, Demo.keyboard_interrupt)))
         Demo.paris m2 Demo.keyboard_interrupt m3
    /\ isinstance_Exception Demo.keyboard_interrupt = false.
Proof.
  destruct (propagated_only_from
              (Demo.poster (Some (Demo.AtRender, Demo.keyboard_interrupt)))
              Demo.paris Demo.fresh Demo.keyboard_interrupt eq_refl)
    as [[m1 [Himp _]] | [[m1 [m2 [_ Hth]]] | Htry]].
  - discriminate Himp.
  - discriminate Hth.
  - exact Htry.
Defined.

Lemma neon_is_a_client_error :
  exists m1 m2 available,
    import_poster Demo.working (module_state Demo.fresh) = (m1, inr tt)
    /\ get_available_themes Demo.working m1 = (m2, inr available)
    /\ theme_in (Some "neon") available = false
    /\ create_map Demo.working
         {| city := "Oslo"; country := "Norway"; theme := Some "neon";
            distance := Some 12000; format := Some "svg" |} Demo.fresh =
       (mk_hstate m2 (calls Demo.fresh ++ [Call_import; Call_get_available_themes]),
        HTTPException 400
          (JStr (theme_not_found_detail (Some "neon") available))).
Proof.
  exact (client_error_only_for_unknown_theme Demo.working
           {| city := "Oslo"; country := "Norway"; theme := Some "neon";
              distance := Some 12000; format := Some "svg" |} Demo.fresh
           (JStr "Theme 'neon' not found. Available: feature_based, minimal")
           eq_refl).
Defined.

Lemma tokyo_was_rendered :
  exists m1 m2 available m3 t m4 pt m5 p m6,
    import_poster Demo.working (module_state Demo.fresh) = (m1, inr tt)
    /\ get_available_themes Demo.working m1 = (m2, inr available)
    /\ theme_in (theme Demo.tokyo_minimal) available = true
    /\ load_theme Demo.working (theme Demo.tokyo_minimal) m2 = (m3, inr t)
    /\ get_coordinates Demo.working (city Demo.tokyo_minimal)
         (country Demo.tokyo_minimal) (mk_pstate (Some t) (env m3)) = (m4, inr pt)
    /\ generate_output_filename Demo.working (city Demo.tokyo_minimal)
         (theme Demo.tokyo_minimal) (format Demo.tokyo_minimal) m4 = (m5, inr p)
    /\ create_poster Demo.working (city Demo.tokyo_minimal)
         (country Demo.tokyo_minimal) pt (distance Demo.tokyo_minimal) p
         (format Demo.tokyo_minimal) m5 = (m6, inr tt)
    /\ create_map Demo.working Demo.tokyo_minimal Demo.fresh =
       (mk_hstate m6 (calls Demo.fresh ++ full_trace Demo.tokyo_minimal t pt p),
        Returned (JObj [("output_file", p)])).
Proof.
  exact (success_means_rendered Demo.working Demo.tokyo_minimal Demo.fresh
           (JObj [("output_file", "posters/Tokyo_minimal.png")]) eq_refl).
Defined.

Lemma server_error_from_filename :
  (exists m1 e,
      import_poster (Demo.poster (Some (Demo.AtFilename, Demo.runtime_error)))
                    (module_state Demo.fresh) = (m1, inl e)
      /\ isinstance_Exception e = true
      /\ JObj [("error", "tile server unreachable");
               ("traceback", format_exc Demo.runtime_error)]
         = JStr ("Failed to import poster module: " ++ exc_str e))
  \/ (exists m1 m2 available m3 e,
         import_poster (Demo.poster (Some (Demo.AtFilename, Demo.runtime_error)))
                       (module_state Demo.fresh) = (m1, inr tt)
         /\ get_available_themes
              (Demo.poster (Some (Demo.AtFilename, Demo.runtime_error))) m1
            = (m2, inr available)
         /\ theme_in (theme Demo.paris) available = true
         /\ collaborator_raises
              (Demo.poster (Some (Demo.AtFilename, Demo.runtime_error)))
              Demo.paris m2 e m3
         /\ isinstance_Exception e = true
         /\ JObj [("error", "tile server unreachable");
                  ("traceback", format_exc Demo.runtime_error)]
            = JObj [("error", exc_str e); ("traceback", format_exc e)]).
Proof.
  exact (server_error_only_from
           (Demo.poster (Some (Demo.AtFilename, Demo.runtime_error)))
           Demo.paris Demo.fresh
           (JObj [("error", "tile server unreachable");
                  ("traceback", format_exc Demo.runtime_error)])
           eq_refl).
Defined.

Lemma status_of_failed_import :
  snd (create_map (Demo.poster (Some (Demo.AtImport, Demo.runtime_error)))
                  Demo.paris Demo.fresh)
  = HTTPException 500
      (JStr "Failed to import poster module: tile server unreachable")
  /\ (500 = 400 \/ 500 = 500).
Proof.
  split; [reflexivity|].
  exact (status_is_400_or_500
           (Demo.poster (Some (Demo.AtImport, Demo.runtime_error)))
           Demo.paris Demo.fresh 500
           (JStr "Failed to import poster module: tile server unreachable")
           eq_refl).
Defined.

Lemma body_without_city_is_rejected :
  exists errors,
    errors <> []
    /\ post_create_map Demo.working
         {| b_city := Omitted; b_country := Given "France";
            b_theme := Given "minimal"; b_distance := Given 5000;
            b_format := Given "pdf" |} Demo.fresh
       = (Demo.fresh, Rejected errors).
Proof.
  refine (invalid_body_never_reaches_handler Demo.working
            {| b_city := Omitted; b_country := Given "France";
               b_theme := Given "minimal"; b_distance := Given 5000;
               b_format := Given "pdf" |} Demo.fresh _).
  left. intros c. discriminate.
Defined.

Lemma ready_on_demo (req : CreateMapRequest) (name : string)
    (s : hstate Demo.W Demo.Theme Demo.Point) :
  theme req = Some name ->
  In name ["feature_based"; "minimal"] ->
  ready Demo.working req s name
    (mk_hstate (mk_pstate (Some name) (env (module_state s)))
       (calls s ++ [Call_import; Call_get_available_themes;
                    Call_load_theme (theme req); Assign_THEME name;
                    Call_get_coordinates (city req) (country req);
                    Call_generate_output_filename (city req) (theme req)
                                                  (format req)]))
    (mk_job (city req) (country req) (48, 2) (distance req)
            (Demo.filename (city req) (theme req) (format req)) (format req)).
Proof.
  intros Hname Hin. destruct s as [[th files] log]. simpl.
  eapply (ready_intro _ _ _ Demo.working req (mk_hstate (mk_pstate th files) log)
            name (mk_pstate th files) (mk_pstate th files)
            ["feature_based"; "minimal"] (mk_pstate th files)
            (mk_pstate (Some name) files) (48, 2)
            (mk_pstate (Some name) files)
            (Demo.filename (city req) (theme req) (format req)));
    try reflexivity.
  - rewrite Hname. apply theme_in_spec. exists name. split; [reflexivity|exact Hin].
  - simpl. rewrite Hname. reflexivity.
Defined.

Lemma paris_rendered_as_minimal :
  rendered_with
    (run_schedule Demo.working (idle Demo.fresh)
       [Accept 7 Demo.paris; Accept 8 Demo.tokyo_minimal; Render 7])
  = [(7%nat, Some "minimal")].
Proof.
  refine (render_sees_later_request Demo.working Demo.paris Demo.tokyo_minimal
            Demo.fresh _ _ _ _ "minimal" 7 8 eq_refl _).
  exact (ready_on_demo Demo.tokyo_minimal "minimal" _ eq_refl
           (or_intror (or_introl eq_refl))).
Defined.

Lemma paris_then_tokyo :
  rendered_with
    (run_schedule Demo.working (idle Demo.fresh)
       [Accept 7 Demo.paris; Render 7; Accept 8 Demo.tokyo_minimal; Render 8])
  = [(7%nat, Some "feature_based"); (8%nat, Some "minimal")].
Proof.
  refine (one_at_a_time_keeps_theme Demo.working Demo.paris Demo.tokyo_minimal
            Demo.fresh _ _ _ _ _ "feature_based" "minimal" _ 7 8 _ eq_refl _).
  - exact (ready_on_demo Demo.paris "feature_based" Demo.fresh eq_refl
             (or_introl eq_refl)).
  - exact (ready_on_demo Demo.tokyo_minimal "minimal" _ eq_refl
             (or_intror (or_introl eq_refl))).
Defined.

Lemma stops_at_the_file_name :
  create_map (Demo.poster (Some (Demo.AtFilename, Demo.runtime_error)))
             Demo.tokyo_minimal Demo.fresh =
  (mk_hstate (mk_pstate (Some "minimal") [])
     [Call_import;
      Call_get_available_themes;
      Call_load_theme (Some "minimal");
      Assign_THEME "minimal";
      Call_get_coordinates "Tokyo" "Japan";
      Call_generate_output_filename "Tokyo" (Some "minimal") (Some "png")],
   HTTPException 500
     (JObj [("error", "tile server unreachable");
            ("traceback", format_exc Demo.runtime_error)])).
Proof.
  refine (create_map_stops_at_the_failure
            (Demo.poster (Some (Demo.AtFilename, Demo.runtime_error)))
            Demo.tokyo_minimal Demo.fresh (mk_pstate None []) (mk_pstate None [])
            (mk_pstate (Some "minimal") []) ["feature_based"; "minimal"]
            Demo.runtime_error _ eq_refl eq_refl eq_refl _).
  eapply stops_at_generate_output_filename; reflexivity.
Defined.
